(** * gdrive-api: the HTTP handlers of [main.go] over an abstract remote store

    [main.go] is a gateway: each handler validates its input, builds a Drive
    service from the service-account secret and issues remote calls one after
    the other.  The embedding keeps that shape.  A handler is a computation in
    a small monad that threads the state of the outside world, records every
    call that leaves the handler together with the answer it got, and can end
    the process ([log.Fatal]).  The outside world (file system, JSON decoder,
    Drive API) is a record of functions over an arbitrary state type, so every
    theorem holds for every remote store, also one whose answers depend on the
    calls made before.  Lines written with [log.Printf] and [log.Println] are
    not recorded; [c.JSON] and the response writer are taken to succeed. *)

From Stdlib Require Import String Ascii List Bool Arith Lia.
From Stdlib Require Import Strings.Byte.
Import ListNotations.
Local Open Scope string_scope.
Local Open Scope list_scope.

Set Implicit Arguments.

(** ** Data *)

(** Go's [(value, error)] pairs. *)
Inductive result (A : Type) : Type :=
| Ok (a : A)
| Err (e : string).
Arguments Ok {A} a.
Arguments Err {A} e.

Definition is_ok {A : Type} (r : result A) : bool :=
  match r with Ok _ => true | Err _ => false end.

(** [drive.File], the fields the program reads or writes. *)
Record File : Type := mkFile {
  Id : string;
  Name : string;
  MimeType : string;
  Parents : list string;
  WebViewLink : string
}.

(** The anonymous struct of [ServiceAccount]: [client_email], [private_key]. *)
Record Secret : Type := mkSecret {
  Email : string;
  PrivateKey : string
}.

(** [jwt.Config]; [config.Client] wraps it in an [*http.Client] without any
    network traffic, so a client is identified with its configuration. *)
Record Config : Type := mkConfig {
  cfg_Email : string;
  cfg_PrivateKey : list byte;
  cfg_Scopes : list string;
  cfg_TokenURL : string
}.
Definition Client : Type := Config.

(** [*drive.Service]: the client it was built over. *)
Record Service : Type := mkService { svc_client : Client }.

Definition DriveScope : string := "https://www.googleapis.com/auth/drive".
Definition JWTTokenURL : string := "https://oauth2.googleapis.com/token".

(** The body of a download: the chunks its [Read] yields, then end of file
    ([None]) or a transport error ([Some e]). *)
Record Reader : Type := mkReader {
  chunks : list (list byte);
  read_err : option string
}.

(** [*http.Response] of [Files.Get(id).Download()]. *)
Record HttpResponse : Type := mkHttpResponse {
  resp_ContentType : string;
  resp_Body : Reader
}.

(** ** What a handler sends back *)

(** The JSON objects the handlers build with map literals. *)
Inductive JsonBody : Type :=
| ErrorBody (error : string)
| FileBody (message file_id file_name file_url : string)
| ListBody (message folder_id : string) (files : list File)
| DeletedBody (message file_id : string).

(** [c.JSON(code, body)] or [c.Stream(code, contentType, reader)]; for a
    stream, the bytes copied into the response and the error of the copy. *)
Inductive Response : Type :=
| JSON (code : nat) (body : JsonBody)
| Stream (code : nat) (contentType : string) (written : list byte)
         (err : option string).

Definition StatusOK : nat := 200.
Definition StatusBadRequest : nat := 400.
Definition StatusNotFound : nat := 404.
Definition StatusInternalServerError : nat := 500.

Definition status (r : Response) : nat :=
  match r with JSON code _ => code | Stream code _ _ _ => code end.

(** ** Requests, as the handlers read them *)

(** [*multipart.FileHeader]: name, declared content type, and what [Open]
    gives. *)
Record FileHeader : Type := mkFileHeader {
  Filename : string;
  Header_ContentType : string;
  Open : result (list byte)
}.

(** [c.FormValue("folder")] (empty when absent) and [c.FormFile("file")]. *)
Record UploadRequest : Type := mkUploadRequest {
  FormValue_folder : string;
  FormFile_file : result FileHeader
}.

(** [requestBody] of [getFileMetadataHandler]. *)
Record requestBody : Type := mkRequestBody {
  FileID : string;
  FileName : string
}.

(** ** Calls that leave the handler *)

Inductive Event : Type :=
| EvReadFile (path : string) (r : result (list byte))
| EvFatal (msg : string)
| EvNewService (c : Client) (r : result Service)
| EvList (q fields : string) (r : result (list File))
| EvDelete (id : string) (r : result unit)
| EvCreate (f : File) (content : list byte) (r : result File)
| EvGet (id fields : string) (r : result File)
| EvDownload (id : string) (r : result HttpResponse)
| EvSrcClose
| EvCopy (b : Reader)
| EvBodyClose (b : Reader).

Definition is_delete (e : Event) : bool :=
  match e with EvDelete _ _ => true | _ => false end.
Definition is_create (e : Event) : bool :=
  match e with EvCreate _ _ _ => true | _ => false end.
Definition is_list (e : Event) : bool :=
  match e with EvList _ _ _ => true | _ => false end.
Definition is_get (e : Event) : bool :=
  match e with EvGet _ _ _ => true | _ => false end.
Definition is_download (e : Event) : bool :=
  match e with EvDownload _ _ => true | _ => false end.
Definition is_body_close (e : Event) : bool :=
  match e with EvBodyClose _ => true | _ => false end.

(** Did the call recorded by [e] come back without an error? *)
Definition ev_ok (e : Event) : bool :=
  match e with
  | EvReadFile _ r => is_ok r
  | EvFatal _ => false
  | EvNewService _ r => is_ok r
  | EvList _ _ r => is_ok r
  | EvDelete _ r => is_ok r
  | EvCreate _ _ r => is_ok r
  | EvGet _ _ r => is_ok r
  | EvDownload _ r => is_ok r
  | EvSrcClose => true
  | EvCopy b => match read_err b with None => true | Some _ => false end
  | EvBodyClose _ => true
  end.

(** ** The outside world *)

(** One function per external operation, over a state [W] of the world.
    [json_Unmarshal b s] is the value of [s] after [json.Unmarshal(b, &s)]
    and the error it reports. *)
Record Remote (W : Type) : Type := mkRemote {
  os_ReadFile : string -> W -> result (list byte) * W;
  json_Unmarshal : list byte -> Secret -> Secret * option string;
  drive_NewService : Client -> W -> result Service * W;
  Files_List : Service -> string -> string -> W -> result (list File) * W;
  Files_Delete : Service -> string -> W -> result unit * W;
  Files_Create : Service -> File -> list byte -> W -> result File * W;
  Files_Get : Service -> string -> string -> W -> result File * W;
  Files_Download : Service -> string -> W -> result HttpResponse * W
}.

(** ** The handler monad *)

(** A computation returns, or the process is gone ([os.Exit] under
    [log.Fatal]). *)
Inductive outcome (A : Type) : Type :=
| Return (a : A)
| Exit (code : nat).
Arguments Return {A} a.
Arguments Exit {A} code.

Definition M (W A : Type) : Type := W -> outcome A * W * list Event.

Definition ret {W A : Type} (a : A) : M W A :=
  fun w => (Return a, w, []).

Definition bind {W A B : Type} (m : M W A) (f : A -> M W B) : M W B :=
  fun w =>
    match m w with
    | (Return a, w1, t1) =>
        match f a w1 with
        | (o, w2, t2) => (o, w2, t1 ++ t2)
        end
    | (Exit code, w1, t1) => (Exit code, w1, t1)
    end.

Notation "x <- m ;; k" := (bind m (fun x => k))
  (at level 61, m at next level, right associativity).

Definition emit {W : Type} (e : Event) : M W unit :=
  fun w => (Return tt, w, [e]).

(** [log.Fatal(msg)]: the process exits with status 1; nothing after it runs,
    deferred calls included. *)
Definition log_Fatal {W A : Type} (msg : string) : M W A :=
  fun w => (Exit 1, w, [EvFatal msg]).

(** [defer cleanup] followed by [body]: [cleanup] runs when the function
    returns, with the value [body] returned. *)
Definition defer {W A : Type} (cleanup : M W unit) (body : M W A) : M W A :=
  a <- body ;; _ <- cleanup ;; ret a.

(** An external operation, recorded with its answer. *)
Definition call {W A : Type} (op : W -> result A * W)
    (ev : result A -> Event) : M W (result A) :=
  fun w => match op w with (r, w') => (Return r, w', [ev r]) end.

Definition trace {W A : Type} (x : outcome A * W * list Event) : list Event :=
  snd x.
Definition value {W A : Type} (x : outcome A * W * list Event) : outcome A :=
  fst (fst x).

(** ** The program *)

Section Program.

Variable W : Type.
Variable env : Remote W.

Definition secretFile : string := ".info_source.json".
Definition listFields : string := "files(id, name, webViewLink)".
Definition getFields : string := "id, name, webViewLink".

(** [ServiceAccount]: the error of [json.Unmarshal] is dropped, and
    [config.Client] cannot fail. *)
Definition ServiceAccount (secretFile : string) : M W Client :=
  r <- call (os_ReadFile env secretFile) (EvReadFile secretFile) ;;
  match r with
  | Err e => log_Fatal ("error while reading the credential file" ++ e)
  | Ok b =>
      let s := fst (json_Unmarshal env b (mkSecret "" "")) in
      let config := mkConfig (Email s) (list_byte_of_string (PrivateKey s))
                             [DriveScope] JWTTokenURL in
      ret config
  end.

(** [createFile]. *)
Definition createFile (service : Service) (name mimeType : string)
    (content : list byte) (parentId : string) : M W (result File) :=
  let f := mkFile "" name mimeType [parentId] "" in
  r <- call (Files_Create env service f content) (EvCreate f content) ;;
  match r with
  | Err e => ret (Err e)
  | Ok file => ret (Ok file)
  end.

(** The query strings, as the handlers concatenate them. *)
Definition name_query (name : string) : string := "name='" ++ name ++ "'".
Definition parents_query (folderId : string) : string :=
  "'" ++ folderId ++ "' in parents".

Definition jsonError (code : nat) (msg : string) : M W Response :=
  ret (JSON code (ErrorBody msg)).

(** [uploadFileHandler]. *)
Definition uploadFileHandler (c : UploadRequest) : M W Response :=
  let folderId := FormValue_folder c in
  if folderId =? "" then jsonError StatusBadRequest "Folder ID is required"
  else
  match FormFile_file c with
  | Err _ => jsonError StatusBadRequest "Failed to read file from request"
  | Ok file =>
  match Open file with
  | Err _ => jsonError StatusInternalServerError "Failed to open file"
  | Ok src =>
  defer (emit EvSrcClose) (
    client <- ServiceAccount secretFile ;;
    s <- call (drive_NewService env client) (EvNewService client) ;;
    match s with
    | Err _ => jsonError StatusInternalServerError
                 "Failed to create Google Drive service"
    | Ok srv =>
    let q := name_query (Filename file) in
    l <- call (Files_List env srv q listFields) (EvList q listFields) ;;
    match l with
    | Err _ => jsonError StatusInternalServerError
                 "Failed to list files in Google Drive"
    | Ok files =>
    d <- match files with
         | f0 :: _ => call (Files_Delete env srv (Id f0)) (EvDelete (Id f0))
         | [] => ret (Ok tt)
         end ;;
    match d with
    | Err _ => jsonError StatusInternalServerError
                 "Failed to delete file from Google Drive"
    | Ok _ =>
    u <- createFile srv (Filename file) (Header_ContentType file) src folderId ;;
    match u with
    | Err _ => jsonError StatusInternalServerError
                 "Failed to upload file to Google Drive"
    | Ok uploadedFile =>
    g <- call (Files_Get env srv (Id uploadedFile) getFields)
              (EvGet (Id uploadedFile) getFields) ;;
    match g with
    | Err _ => jsonError StatusInternalServerError
                 "Failed to get file metadata from Google Drive"
    | Ok getFile =>
        ret (JSON StatusOK
               (FileBody "File successfully uploaded"
                         (Id getFile) (Name getFile) (WebViewLink getFile)))
    end end end end end)
  end end.

(** [listFilesHandler]; its argument is [c.QueryParam("folder")]. *)
Definition listFilesHandler (folderId : string) : M W Response :=
  if folderId =? "" then jsonError StatusBadRequest "Folder ID is required"
  else
  client <- ServiceAccount secretFile ;;
  s <- call (drive_NewService env client) (EvNewService client) ;;
  match s with
  | Err _ => jsonError StatusInternalServerError
               "Failed to create Google Drive service"
  | Ok srv =>
  let q := parents_query folderId in
  l <- call (Files_List env srv q listFields) (EvList q listFields) ;;
  match l with
  | Err _ => jsonError StatusInternalServerError
               "Failed to list files in Google Drive"
  | Ok files =>
      ret (JSON StatusOK
             (ListBody "Files successfully retrieved" folderId files))
  end end.

(** [io.Copy(dst, src)], the loop: each chunk read is appended to what the
    response holds. *)
Fixpoint copy_chunks (dst : list byte) (cs : list (list byte)) : list byte :=
  match cs with
  | [] => dst
  | chunk :: cs' => copy_chunks (dst ++ chunk) cs'
  end.

Definition io_Copy (src : Reader) : list byte * option string :=
  (copy_chunks [] (chunks src), read_err src).

(** [c.Stream(code, contentType, r)]: content type and status are written,
    then the reader is copied into the response; the error of the copy is
    what the handler returns. *)
Definition c_Stream (code : nat) (contentType : string) (r : Reader)
    : M W Response :=
  _ <- emit (EvCopy r) ;;
  match io_Copy r with
  | (written, err) => ret (Stream code contentType written err)
  end.

(** [getFileHandler]; its argument is [c.Param("fileId")]. *)
Definition getFileHandler (fileId : string) : M W Response :=
  if fileId =? "" then jsonError StatusBadRequest "File ID is required"
  else
  client <- ServiceAccount secretFile ;;
  s <- call (drive_NewService env client) (EvNewService client) ;;
  match s with
  | Err _ => jsonError StatusInternalServerError
               "Failed to create Google Drive service"
  | Ok srv =>
  f <- call (Files_Download env srv fileId) (EvDownload fileId) ;;
  match f with
  | Err _ => jsonError StatusInternalServerError
               "Failed to get file from Google Drive"
  | Ok file =>
      defer (emit (EvBodyClose (resp_Body file)))
            (c_Stream StatusOK (resp_ContentType file) (resp_Body file))
  end end.

(** [getFileMetadataHandler]; its argument is what [c.Bind(&body)] gives. *)
Definition getFileMetadataHandler (bound : result requestBody)
    : M W Response :=
  match bound with
  | Err _ => jsonError StatusBadRequest "Invalid request body"
  | Ok body =>
  client <- ServiceAccount secretFile ;;
  s <- call (drive_NewService env client) (EvNewService client) ;;
  match s with
  | Err _ => jsonError StatusInternalServerError
               "Failed to create Google Drive service"
  | Ok srv =>
  if negb (FileID body =? "") then
    g <- call (Files_Get env srv (FileID body) getFields)
              (EvGet (FileID body) getFields) ;;
    match g with
    | Err _ => jsonError StatusInternalServerError
                 "Failed to get file metadata from Google Drive"
    | Ok file =>
        ret (JSON StatusOK
               (FileBody "File metadata successfully retrieved"
                         (Id file) (Name file) (WebViewLink file)))
    end
  else if negb (FileName body =? "") then
    let q := name_query (FileName body) in
    l <- call (Files_List env srv q listFields) (EvList q listFields) ;;
    match l with
    | Err _ => jsonError StatusInternalServerError
                 "Failed to list files in Google Drive"
    | Ok [] => jsonError StatusNotFound "File not found"
    | Ok (f0 :: _) =>
        ret (JSON StatusOK
               (FileBody "File metadata successfully retrieved"
                         (Id f0) (Name f0) (WebViewLink f0)))
    end
  else jsonError StatusBadRequest "File ID or File Name is required"
  end end.

(** [deleteFileHandler]; its argument is [c.Param("fileId")]. *)
Definition deleteFileHandler (fileId : string) : M W Response :=
  if fileId =? "" then jsonError StatusBadRequest "File ID is required"
  else
  client <- ServiceAccount secretFile ;;
  s <- call (drive_NewService env client) (EvNewService client) ;;
  match s with
  | Err _ => jsonError StatusInternalServerError
               "Failed to create Google Drive service"
  | Ok srv =>
  d <- call (Files_Delete env srv fileId) (EvDelete fileId) ;;
  match d with
  | Err _ => jsonError StatusInternalServerError
               "Failed to delete file from Google Drive"
  | Ok _ =>
      ret (JSON StatusOK (DeletedBody "File successfully deleted" fileId))
  end end.

End Program.

(** ** A remote store to run the handlers on

    An in-memory store: the state is the list of files, newest first.  It is
    used to run the handlers on concrete requests; no theorem about the
    handlers depends on it. *)

Module MemDrive.

Definition W : Type := list File.

Definition secret_bytes : list byte := list_byte_of_string "{}".

Definition ReadFile (path : string) (w : W) : result (list byte) * W :=
  if path =? ".info_source.json" then (Ok secret_bytes, w)
  else (Err "open: no such file or directory", w).

(** A decoder that rejects every input and leaves the struct as it was. *)
Definition Unmarshal (b : list byte) (s : Secret) : Secret * option string :=
  (s, Some "json: cannot unmarshal").

Definition NewService (c : Client) (w : W) : result Service * W :=
  (Ok (mkService c), w).

Definition matches (q : string) (f : File) : bool :=
  (q =? "name='" ++ Name f ++ "'")
  || existsb (fun p => q =? "'" ++ p ++ "' in parents") (Parents f).

Definition List_ (srv : Service) (q fields : string) (w : W)
    : result (list File) * W :=
  (Ok (filter (matches q) w), w).

Definition has_id (id : string) (f : File) : bool := Id f =? id.

Definition Delete (srv : Service) (id : string) (w : W) : result unit * W :=
  if existsb (has_id id) w
  then (Ok tt, filter (fun f => negb (has_id id f)) w)
  else (Err "File not found", w).

Fixpoint fresh_id (n : nat) : string :=
  match n with
  | O => "f"
  | S n' => String "x" (fresh_id n')
  end.

Definition Create (srv : Service) (f : File) (content : list byte) (w : W)
    : result File * W :=
  let id := fresh_id (length w) in
  let f' := mkFile id (Name f) (MimeType f) (Parents f)
                   ("https://drive.google.com/file/d/" ++ id) in
  (Ok f', f' :: w).

Definition Get (srv : Service) (id fields : string) (w : W)
    : result File * W :=
  match find (has_id id) w with
  | Some f => (Ok f, w)
  | None => (Err "File not found", w)
  end.

(** The content of a file arrives in two chunks; the transfer of a
    markdown file breaks off after the first. *)
Definition body : Reader := mkReader [[x68; x69]; [x21]] None.
Definition broken_body : Reader :=
  mkReader [[x68; x69]] (Some "unexpected EOF").

Definition Download (srv : Service) (id : string) (w : W)
    : result HttpResponse * W :=
  match find (has_id id) w with
  | Some f =>
      (Ok (mkHttpResponse (MimeType f)
             (if MimeType f =? "text/markdown" then broken_body else body)),
       w)
  | None => (Err "File not found", w)
  end.

Definition env : Remote W :=
  mkRemote ReadFile Unmarshal NewService List_ Delete Create Get Download.

(** A store whose secret file cannot be read. *)
Definition no_secret : Remote W :=
  mkRemote (fun _ w => (Err "permission denied", w))
           Unmarshal NewService List_ Delete Create Get Download.

(** A store whose service cannot be built. *)
Definition no_service : Remote W :=
  mkRemote ReadFile Unmarshal (fun _ w => (Err "bad option", w))
           List_ Delete Create Get Download.

Definition report : File :=
  mkFile "a1" "report.txt" "text/plain" ["root"] "https://drive/a1".
Definition report_copy : File :=
  mkFile "a2" "report.txt" "text/plain" ["other"] "https://drive/a2".
Definition notes : File :=
  mkFile "a3" "notes.md" "text/markdown" ["root"] "https://drive/a3".

Definition store : W := [report; report_copy; notes].

Definition upload (name : string) : UploadRequest :=
  mkUploadRequest "root"
    (Ok (mkFileHeader name "text/plain" (Ok [x61; x62]))).

End MemDrive.

(** ** What the handlers rely on from the Drive API

    The handlers answer with what the remote store returns and check none
    of it.  What the specification says about those values (an id that is not
    empty, the name of the upload, a link) holds when the store keeps the
    contract of a file store. *)





(** The service was built: the run got past [drive.NewService]. *)
Definition service_built (tr : list Event) : Prop :=
  exists cl srv, In (EvNewService cl (Ok srv)) tr.

(** Single quotes of a string: the delimiters of a literal in a Drive
    query. *)
Fixpoint count_quotes (s : string) : nat :=
  match s with
  | EmptyString => 0
  | String a s' =>
      (if Ascii.eqb a "'" then 1 else 0) + count_quotes s'
  end.

(** The in-memory store with no room left: every Create fails. *)
Definition quota_exceeded : Remote MemDrive.W :=
  mkRemote MemDrive.ReadFile MemDrive.Unmarshal MemDrive.NewService
           MemDrive.List_ MemDrive.Delete
           (fun _ _ _ w => (Err "storage quota exceeded", w))
           MemDrive.Get MemDrive.Download.

(** The client [ServiceAccount] builds over the in-memory store. *)
Definition mem_client : Client := mkConfig "" [] [DriveScope] JWTTokenURL.

(** ** The routes of [main]

    [main] binds each handler to one route.  A request is the route it
    matched together with what the handler of that route reads from it. *)
Inductive Request : Type :=
| PostUploadFile (c : UploadRequest)
| GetList (folder : string)
| GetDownload (fileId : string)
| PostFileMetadata (bound : result requestBody)
| DeleteFileDelete (fileId : string).

Definition main {W : Type} (env : Remote W) (rq : Request) : M W Response :=
  match rq with
  | PostUploadFile c => uploadFileHandler env c
  | GetList folder => listFilesHandler env folder
  | GetDownload fileId => getFileHandler env fileId
  | PostFileMetadata bound => getFileMetadataHandler env bound
  | DeleteFileDelete fileId => deleteFileHandler env fileId
  end.

(** ** Kinds of events *)

Definition is_read_file (e : Event) : bool :=
  match e with EvReadFile _ _ => true | _ => false end.
Definition is_new_service (e : Event) : bool :=
  match e with EvNewService _ _ => true | _ => false end.
Definition is_src_close (e : Event) : bool :=
  match e with EvSrcClose => true | _ => false end.
Definition is_copy (e : Event) : bool :=
  match e with EvCopy _ => true | _ => false end.

(** A call of the Drive files API. *)
Definition is_files_call (e : Event) : bool :=
  is_list e || is_delete e || is_create e || is_get e || is_download e.

(** A call that can fail: the read of the secret, the construction of the
    service, a call of the files API. *)
Definition is_call (e : Event) : bool :=
  is_read_file e || is_new_service e || is_files_call e.

Definition call_failed (e : Event) : bool := is_call e && negb (ev_ok e).

(** A call that changes the remote store. *)
Definition modifies (e : Event) : bool := is_delete e || is_create e.

(** The routes that only read. *)
Definition read_only (rq : Request) : bool :=
  match rq with
  | GetList _ | GetDownload _ | PostFileMetadata _ => true
  | PostUploadFile _ | DeleteFileDelete _ => false
  end.

(** No call follows a failed one. *)
Fixpoint stops_at_failure (tr : list Event) : bool :=
  match tr with
  | [] => true
  | e :: tr' =>
      if call_failed e then negb (existsb is_call tr')
      else stops_at_failure tr'
  end.

(** * Theorems *)

Unset Implicit Arguments.

(** Unfolds a handler down to the calls of the outside world and splits on
    every answer. *)
Ltac unfold_handler :=
  unfold uploadFileHandler, listFilesHandler, getFileHandler,
         getFileMetadataHandler, deleteFileHandler, createFile,
         ServiceAccount, c_Stream, io_Copy, jsonError, defer, log_Fatal,
         call, emit, bind, ret, trace, value in *.

Ltac atomic x :=
  lazymatch x with
  | context [match _ with _ => _ end] => fail
  | _ => idtac
  end.

Ltac split_answers :=
  repeat match goal with
         | H : context [match ?x with _ => _ end] |- _ =>
             atomic x; destruct x eqn:?; cbn [fst snd app] in *
         | |- context [match ?x with _ => _ end] =>
             atomic x; destruct x eqn:?; cbn [fst snd app] in *
         end.

(** Which event of a concrete trace is the one [H] speaks of. *)
Ltac in_trace H :=
  cbn [In] in H;
  repeat (destruct H as [H | H]; [try discriminate H | ]);
  try contradiction.

Section Validation.

Variable W : Type.
Variable env : Remote W.

(** C3: an upload with an empty folder field or without a readable file part,
    and a list request with an empty folder parameter, are answered with
    status 400 and no call leaves the handler: the trace is empty (no secret
    read, no service built, no List, Delete, Create or Get) and the world is
    as it was. *)
Theorem bad_upload_or_list_is_400_without_calls :
  forall w : W,
    (forall c : UploadRequest,
        FormValue_folder c = "" \/ is_ok (FormFile_file c) = false ->
        exists msg,
          uploadFileHandler env c w
          = (Return (JSON StatusBadRequest (ErrorBody msg)), w, [])) /\
    (forall folderId : string,
        folderId = "" ->
        listFilesHandler env folderId w
        = (Return (JSON StatusBadRequest (ErrorBody "Folder ID is required")),
           w, [])).
Proof.
  intro w. split.
  - intros c [Hfolder | Hfile].
    + exists "Folder ID is required".
      unfold uploadFileHandler. rewrite Hfolder. reflexivity.
    + unfold uploadFileHandler.
      destruct (FormValue_folder c =? "").
      * exists "Folder ID is required". reflexivity.
      * destruct (FormFile_file c) as [file | e]; [discriminate Hfile |].
        exists "Failed to read file from request". reflexivity.
  - intros folderId ->. reflexivity.
Qed.

(** C9: a metadata request whose body does not bind is answered with status
    400 and the error "Invalid request body", and no call leaves the
    handler. *)
Theorem unbound_metadata_body_is_400 :
  forall (w : W) (e : string),
    getFileMetadataHandler env (Err e) w
    = (Return (JSON StatusBadRequest (ErrorBody "Invalid request body")),
       w, []).
Proof. reflexivity. Qed.

(** C10: a download request and a delete request with an empty [fileId] are
    answered with status 400 before any call leaves the handler. *)
Theorem empty_file_id_is_400 :
  forall w : W,
    getFileHandler env "" w
    = (Return (JSON StatusBadRequest (ErrorBody "File ID is required")),
       w, []) /\
    deleteFileHandler env "" w
    = (Return (JSON StatusBadRequest (ErrorBody "File ID is required")),
       w, []).
Proof. intro w. split; reflexivity. Qed.

(** A file part that is in the request but cannot be opened is another
    case: status 500, and still no call. *)
Remark unopenable_upload_is_500 :
  forall (w : W) (folder name ctype e : string),
    folder <> "" ->
    uploadFileHandler env
      (mkUploadRequest folder (Ok (mkFileHeader name ctype (Err e)))) w
    = (Return (JSON StatusInternalServerError (ErrorBody "Failed to open file")),
       w, []).
Proof.
  intros w folder name ctype e Hfolder.
  unfold uploadFileHandler. simpl.
  apply String.eqb_neq in Hfolder. rewrite Hfolder. reflexivity.
Qed.

End Validation.

Lemma bad_upload_or_list_witness :
  (exists msg,
      uploadFileHandler MemDrive.env
        (mkUploadRequest "root" (Err "http: no such file")) MemDrive.store
      = (Return (JSON StatusBadRequest (ErrorBody msg)), MemDrive.store, [])) /\
  listFilesHandler MemDrive.env "" MemDrive.store
  = (Return (JSON StatusBadRequest (ErrorBody "Folder ID is required")),
     MemDrive.store, []).
Proof.
  destruct (bad_upload_or_list_is_400_without_calls _ MemDrive.env
              MemDrive.store)
    as [Hupload Hlist].
  split.
  - apply Hupload. right. reflexivity.
  - apply Hlist. reflexivity.
Defined.


Section Upload.

Variable W : Type.
Variable env : Remote W.

(** C1: when the name search of an upload returns at least one file, the
    handler issues exactly one Delete, right after the search and for the id
    of the first file returned; no Create comes before it, and a Create comes
    after it exactly when the Delete succeeded. *)
Theorem upload_deletes_first_match_once :
  forall (w : W) (c : UploadRequest) (q fields : string)
         (f0 : File) (rest : list File),
    In (EvList q fields (Ok (f0 :: rest))) (trace (uploadFileHandler env c w)) ->
    exists (pre : list Event) (r : result unit) (post : list Event),
      trace (uploadFileHandler env c w)
      = pre ++ [EvList q fields (Ok (f0 :: rest)); EvDelete (Id f0) r] ++ post /\
      filter is_delete (trace (uploadFileHandler env c w))
      = [EvDelete (Id f0) r] /\
      existsb is_create pre = false /\
      existsb is_create post = is_ok r.
Proof.
  intros w c q fields f0 rest Hin.
  unfold_handler. split_answers; in_trace Hin.
  all: inversion Hin; subst; clear Hin.
  all: match goal with
       | |- context [EvReadFile ?p ?a :: EvNewService ?cl ?s :: _] =>
           exists [EvReadFile p a; EvNewService cl s]
       end.
  all: match goal with
       | |- context [EvDelete _ ?r :: ?post] => exists r, post
       end.
  all: repeat split; reflexivity.
Qed.


End Upload.

Section Metadata.

Variable W : Type.
Variable env : Remote W.

Lemma eqb_empty_false (s : string) : s <> "" -> (s =? "") = false.
Proof. intro H. apply String.eqb_neq. exact H. Qed.

Lemma eqb_empty_true (s : string) : s = "" -> (s =? "") = true.
Proof. intros ->. reflexivity. Qed.

(** C4, amended: a metadata request whose body binds.  With a non-empty
    [file_id] no search by name is made and the answer is never 404 (nor
    400): 200 or 500.  Once the service is built (the secret was read and
    [drive.NewService] succeeded): with a non-empty [file_id] the one lookup
    is the Get of that id, and its failure gives the generic 500; otherwise
    with a non-empty [file_name] the one lookup is the search by that exact
    name, answered with its first file, or 404 when it returns none;
    otherwise the answer is 400 and nothing is looked up. *)
Theorem metadata_precedence :
  forall (w : W) (body : requestBody),
    (FileID body <> "" ->
       filter is_list (trace (getFileMetadataHandler env (Ok body) w)) = [] /\
       forall r : Response,
         value (getFileMetadataHandler env (Ok body) w) = Return r ->
         status r = StatusOK \/ status r = StatusInternalServerError) /\
    (service_built (trace (getFileMetadataHandler env (Ok body) w)) ->
       (FileID body <> "" ->
          exists g : result File,
            filter (fun e => is_get e || is_list e)
                   (trace (getFileMetadataHandler env (Ok body) w))
            = [EvGet (FileID body) getFields g] /\
            value (getFileMetadataHandler env (Ok body) w)
            = Return
                match g with
                | Ok file =>
                    JSON StatusOK
                      (FileBody "File metadata successfully retrieved"
                                (Id file) (Name file) (WebViewLink file))
                | Err _ =>
                    JSON StatusInternalServerError
                      (ErrorBody "Failed to get file metadata from Google Drive")
                end) /\
       (FileID body = "" -> FileName body <> "" ->
          exists l : result (list File),
            filter (fun e => is_get e || is_list e)
                   (trace (getFileMetadataHandler env (Ok body) w))
            = [EvList (name_query (FileName body)) listFields l] /\
            value (getFileMetadataHandler env (Ok body) w)
            = Return
                match l with
                | Ok (f0 :: _) =>
                    JSON StatusOK
                      (FileBody "File metadata successfully retrieved"
                                (Id f0) (Name f0) (WebViewLink f0))
                | Ok [] => JSON StatusNotFound (ErrorBody "File not found")
                | Err _ =>
                    JSON StatusInternalServerError
                      (ErrorBody "Failed to list files in Google Drive")
                end) /\
       (FileID body = "" -> FileName body = "" ->
          filter (fun e => is_get e || is_list e)
                 (trace (getFileMetadataHandler env (Ok body) w)) = [] /\
          value (getFileMetadataHandler env (Ok body) w)
          = Return (JSON StatusBadRequest
                      (ErrorBody "File ID or File Name is required")))).
Proof.
  intros w body. split; [| intros (cl & srv & Hin); split; [| split] ].
  - intro Hid. apply eqb_empty_false in Hid.
    unfold_handler. rewrite Hid. cbn [negb].
    split_answers; (split; [reflexivity |]);
      intros resp Hresp; inversion Hresp; subst; simpl; auto.
  - intro Hid. apply eqb_empty_false in Hid.
    revert Hin. unfold_handler. rewrite Hid. cbn [negb].
    split_answers; intro Hin; in_trace Hin;
      eexists; split; reflexivity.
  - intros Hid Hname. apply eqb_empty_true in Hid.
    apply eqb_empty_false in Hname.
    revert Hin. unfold_handler. rewrite Hid, Hname. cbn [negb].
    split_answers; intro Hin; in_trace Hin;
      eexists; split; reflexivity.
  - intros Hid Hname. apply eqb_empty_true in Hid, Hname.
    revert Hin. unfold_handler. rewrite Hid, Hname. cbn [negb].
    split_answers; intro Hin; in_trace Hin; split; reflexivity.
Qed.


End Metadata.

Section Download.

Variable W : Type.
Variable env : Remote W.

(** The copy loop appends the chunks, in order, to what was written. *)
Lemma copy_chunks_concat (cs : list (list byte)) :
  forall dst : list byte, copy_chunks dst cs = dst ++ concat cs.
Proof.
  induction cs as [| chunk cs IH]; intro dst; simpl.
  - symmetry. apply app_nil_r.
  - rewrite IH. symmetry. apply app_assoc.
Qed.

Lemma io_Copy_all (src : Reader) :
  io_Copy src = (concat (chunks src), read_err src).
Proof. unfold io_Copy. rewrite copy_chunks_concat. reflexivity. Qed.

(** C6: when the Download call of a download request succeeds, the answer
    is a stream with status 200, the content type the store reported and, as
    its bytes, the bytes the store's body yields, in order and unchanged; the
    body is closed exactly once, as the last step after the copy, whether the
    copy ended at the end of the body or on an error. *)
Theorem download_streams_body_and_closes_it :
  forall (w : W) (fileId id : string) (resp : HttpResponse),
    In (EvDownload id (Ok resp)) (trace (getFileHandler env fileId w)) ->
    value (getFileHandler env fileId w)
    = Return (Stream StatusOK (resp_ContentType resp)
                     (concat (chunks (resp_Body resp)))
                     (read_err (resp_Body resp))) /\
    filter is_body_close (trace (getFileHandler env fileId w))
    = [EvBodyClose (resp_Body resp)] /\
    exists pre : list Event,
      trace (getFileHandler env fileId w)
      = pre ++ [EvDownload fileId (Ok resp); EvCopy (resp_Body resp);
                EvBodyClose (resp_Body resp)].
Proof.
  intros w fileId id resp Hin. revert Hin.
  unfold getFileHandler, defer, c_Stream, ServiceAccount, jsonError,
         log_Fatal, call, emit, bind, ret, trace, value.
  split_answers; intro Hin; in_trace Hin.
  inversion Hin; subst; clear Hin.
  match goal with
  | Hcopy : io_Copy _ = _ |- _ =>
      rewrite io_Copy_all in Hcopy; inversion Hcopy; subst; clear Hcopy
  end.
  repeat split.
  match goal with
  | |- context [EvReadFile ?p ?a :: EvNewService ?cl ?s :: _] =>
      exists [EvReadFile p a; EvNewService cl s]
  end.
  reflexivity.
Qed.

End Download.

Section Credentials.

Variable W : Type.
Variable env : Remote W.

(** C7: [ServiceAccount] ends the process exactly when the secret file
    cannot be read.  When it can, a client is returned and the read is the
    only call made, whatever the decoder makes of the contents: its error is
    not looked at, and the client carries the fields it left in the
    struct. *)
Theorem ServiceAccount_exits_iff_unreadable :
  forall (w : W) (path : string),
    ((exists code : nat, value (ServiceAccount env path w) = Exit code)
     <-> is_ok (fst (os_ReadFile env path w)) = false) /\
    (forall (b : list byte) (w' : W) (s : Secret) (e : option string),
        os_ReadFile env path w = (Ok b, w') ->
        json_Unmarshal env b (mkSecret "" "") = (s, e) ->
        ServiceAccount env path w
        = (Return (mkConfig (Email s) (list_byte_of_string (PrivateKey s))
                            [DriveScope] JWTTokenURL),
           w', [EvReadFile path (Ok b)])).
Proof.
  intros w path. split.
  - unfold_handler.
    destruct (os_ReadFile env path w) as [[b | e] w']; simpl; split.
    + intros [code Hexit]. discriminate Hexit.
    + intro Hread. discriminate Hread.
    + intros _. reflexivity.
    + intros _. exists 1. reflexivity.
  - intros b w' s e Hread Hjson.
    unfold_handler. rewrite Hread, Hjson. reflexivity.
Qed.

End Credentials.

Section Queries.

Variable W : Type.
Variable env : Remote W.

Lemma count_quotes_app (s t : string) :
  count_quotes (s ++ t) = count_quotes s + count_quotes t.
Proof.
  induction s as [| a s IH]; simpl.
  - reflexivity.
  - rewrite IH. apply Nat.add_assoc.
Qed.

(** C8: the query of every List call is the plain concatenation
    [name='N'] (upload, metadata by name) or ['F' in parents] (list), with
    [N] and [F] as the request gave them: every quote of the input is in the
    query next to the two delimiters, so an input with a quote yields a query
    with more than one literal; one such name makes the search for one name
    the disjunction of two searches. *)
Theorem queries_are_interpolated_unescaped :
  forall w : W,
    (forall (c : UploadRequest) (q fields : string) (r : result (list File)),
        In (EvList q fields r) (trace (uploadFileHandler env c w)) ->
        exists file : FileHeader,
          FormFile_file c = Ok file /\ q = ("name='" ++ Filename file ++ "'")%string) /\
    (forall (bound : result requestBody) (q fields : string)
            (r : result (list File)),
        In (EvList q fields r) (trace (getFileMetadataHandler env bound w)) ->
        exists body : requestBody,
          bound = Ok body /\ q = ("name='" ++ FileName body ++ "'")%string) /\
    (forall (folderId q fields : string) (r : result (list File)),
        In (EvList q fields r) (trace (listFilesHandler env folderId w)) ->
        q = ("'" ++ folderId ++ "' in parents")%string) /\
    (forall N : string, count_quotes (name_query N) = 2 + count_quotes N) /\
    (forall F : string, count_quotes (parents_query F) = 2 + count_quotes F) /\
    name_query "a' or name='b"
    = (name_query "a" ++ " or " ++ name_query "b")%string /\
    parents_query "x' in parents or 'y"
    = (parents_query "x" ++ " or " ++ parents_query "y")%string.
Proof.
  intro w.
  split; [| split; [| split; [| split; [| split; [| split]]]]].
  - intros c q fields r. unfold_handler.
    split_answers; intro Hin; in_trace Hin;
      inversion Hin; subst; eexists; split; reflexivity.
  - intros bound q fields r. unfold_handler.
    split_answers; intro Hin; in_trace Hin;
      inversion Hin; subst; eexists; split; reflexivity.
  - intros folderId q fields r. unfold_handler.
    split_answers; intro Hin; in_trace Hin;
      inversion Hin; subst; reflexivity.
  - intro N. unfold name_query. rewrite !count_quotes_app. simpl. lia.
  - intro F. unfold parents_query. rewrite !count_quotes_app. simpl. lia.
  - reflexivity.
  - reflexivity.
Qed.

End Queries.

(** * The theorems at work on the in-memory store *)




Lemma upload_deletes_first_match_once_witness :
  exists (pre : list Event) (r : result unit) (post : list Event),
    trace (uploadFileHandler MemDrive.env (MemDrive.upload "report.txt")
                             MemDrive.store)
    = pre ++ [EvList "name='report.txt'" listFields
                     (Ok [MemDrive.report; MemDrive.report_copy]);
              EvDelete "a1" r] ++ post /\
    filter is_delete
      (trace (uploadFileHandler MemDrive.env (MemDrive.upload "report.txt")
                                MemDrive.store))
    = [EvDelete "a1" r] /\
    existsb is_create pre = false /\
    existsb is_create post = is_ok r.
Proof.
  apply (upload_deletes_first_match_once _ MemDrive.env MemDrive.store
           (MemDrive.upload "report.txt") "name='report.txt'" listFields
           MemDrive.report [MemDrive.report_copy]).
  simpl. do 2 right. left. reflexivity.
Defined.


Lemma metadata_precedence_witness :
  value (getFileMetadataHandler MemDrive.env (Ok (mkRequestBody "a3" "report.txt"))
                                MemDrive.store)
  = Return (JSON StatusOK
              (FileBody "File metadata successfully retrieved"
                        "a3" "notes.md" "https://drive/a3")) /\
  value (getFileMetadataHandler MemDrive.env (Ok (mkRequestBody "" "missing.txt"))
                                MemDrive.store)
  = Return (JSON StatusNotFound (ErrorBody "File not found")) /\
  value (getFileMetadataHandler MemDrive.env (Ok (mkRequestBody "" ""))
                                MemDrive.store)
  = Return (JSON StatusBadRequest
              (ErrorBody "File ID or File Name is required")).
Proof.
  assert (Hbuilt : forall body,
             In (EvNewService (mkConfig "" [] [DriveScope] JWTTokenURL)
                   (Ok (mkService (mkConfig "" [] [DriveScope] JWTTokenURL))))
                (trace (getFileMetadataHandler MemDrive.env (Ok body)
                                               MemDrive.store)) ->
             service_built
               (trace (getFileMetadataHandler MemDrive.env (Ok body)
                                              MemDrive.store))).
  { intros body Hin. eexists. eexists. exact Hin. }
  split; [| split].
  - destruct (metadata_precedence _ MemDrive.env MemDrive.store
                (mkRequestBody "a3" "report.txt")) as [_ Hrun].
    destruct Hrun as [Hid _];
      [apply Hbuilt; simpl; right; left; reflexivity |].
    destruct Hid as [g [Hlookup Hvalue]]; [discriminate |].
    inversion Hlookup; subst. exact Hvalue.
  - destruct (metadata_precedence _ MemDrive.env MemDrive.store
                (mkRequestBody "" "missing.txt")) as [_ Hrun].
    destruct Hrun as [_ [Hname _]];
      [apply Hbuilt; simpl; right; left; reflexivity |].
    destruct Hname as [l [Hlookup Hvalue]];
      [reflexivity | discriminate |].
    inversion Hlookup; subst. exact Hvalue.
  - destruct (metadata_precedence _ MemDrive.env MemDrive.store
                (mkRequestBody "" "")) as [_ Hrun].
    destruct Hrun as [_ [_ Hnone]];
      [apply Hbuilt; simpl; right; left; reflexivity |].
    destruct Hnone as [_ Hvalue]; [reflexivity | reflexivity |].
    exact Hvalue.
Defined.


Lemma download_witness :
  value (getFileHandler MemDrive.env "a1" MemDrive.store)
  = Return (Stream StatusOK "text/plain" [x68; x69; x21] None) /\
  filter is_body_close (trace (getFileHandler MemDrive.env "a1" MemDrive.store))
  = [EvBodyClose MemDrive.body] /\
  value (getFileHandler MemDrive.env "a3" MemDrive.store)
  = Return (Stream StatusOK "text/markdown" [x68; x69]
                   (Some "unexpected EOF")) /\
  filter is_body_close (trace (getFileHandler MemDrive.env "a3" MemDrive.store))
  = [EvBodyClose MemDrive.broken_body].
Proof.
  destruct (download_streams_body_and_closes_it _ MemDrive.env MemDrive.store
              "a1" "a1" (mkHttpResponse "text/plain" MemDrive.body))
    as [Hvalue [Hclose _]].
  { simpl. do 2 right. left. reflexivity. }
  destruct (download_streams_body_and_closes_it _ MemDrive.env MemDrive.store
              "a3" "a3" (mkHttpResponse "text/markdown" MemDrive.broken_body))
    as [Hvalue' [Hclose' _]].
  { simpl. do 2 right. left. reflexivity. }
  repeat split; assumption.
Defined.

Lemma ServiceAccount_witness :
  (exists code : nat,
      value (ServiceAccount MemDrive.env "missing.json" MemDrive.store)
      = Exit code) /\
  ServiceAccount MemDrive.env ".info_source.json" MemDrive.store
  = (Return (mkConfig "" [] [DriveScope] JWTTokenURL), MemDrive.store,
     [EvReadFile ".info_source.json" (Ok MemDrive.secret_bytes)]).
Proof.
  split.
  - destruct (ServiceAccount_exits_iff_unreadable _ MemDrive.env MemDrive.store
                "missing.json") as [[_ Hexit] _].
    apply Hexit. reflexivity.
  - destruct (ServiceAccount_exits_iff_unreadable _ MemDrive.env MemDrive.store
                ".info_source.json") as [_ Hreturn].
    apply (Hreturn MemDrive.secret_bytes MemDrive.store (mkSecret "" "")
                   (Some "json: cannot unmarshal")); reflexivity.
Defined.

Lemma queries_witness :
  (exists file : FileHeader,
      FormFile_file (MemDrive.upload "it's.txt") = Ok file /\
      "name='it's.txt'" = ("name='" ++ Filename file ++ "'")%string) /\
  count_quotes (name_query "it's.txt") = 3.
Proof.
  destruct (queries_are_interpolated_unescaped _ MemDrive.env MemDrive.store)
    as [Hupload [_ [_ [Hcount _]]]].
  split.
  - apply (Hupload (MemDrive.upload "it's.txt") "name='it's.txt'" listFields
                   (Ok [])).
    simpl. do 2 right. left. reflexivity.
  - rewrite Hcount. reflexivity.
Defined.

(** C4 as stated fails before the service is built: with both fields empty
    the process exits when the secret cannot be read, and the answer is 500
    when the service cannot be built; with a [file_id] and no readable secret
    nothing is looked up. *)
Lemma metadata_without_service_is_not_400 :
  value (getFileMetadataHandler MemDrive.no_secret (Ok (mkRequestBody "" ""))
                                MemDrive.store)
  = Exit 1 /\
  value (getFileMetadataHandler MemDrive.no_service (Ok (mkRequestBody "" ""))
                                MemDrive.store)
  = Return (JSON StatusInternalServerError
              (ErrorBody "Failed to create Google Drive service")) /\
  filter is_get
    (trace (getFileMetadataHandler MemDrive.no_secret
              (Ok (mkRequestBody "a1" "")) MemDrive.store))
  = [].
Proof. repeat split. Qed.

(** * Further properties of the handlers *)

Ltac unfold_main := unfold main in *; unfold_handler.

Section Routes.

Variable W : Type.
Variable env : Remote W.

Lemma stops_at_failure_spec (tr : list Event) :
  stops_at_failure tr = true ->
  forall (pre : list Event) (e : Event) (post : list Event),
    tr = pre ++ e :: post -> call_failed e = true ->
    existsb is_call post = false.
Proof.
  intros Hstop pre. revert tr Hstop.
  induction pre as [| a pre IH]; intros tr Hstop e post -> Hfail.
  - simpl in Hstop. rewrite Hfail in Hstop.
    apply negb_true_iff. exact Hstop.
  - simpl in Hstop. destruct (call_failed a).
    + apply negb_true_iff in Hstop.
      rewrite existsb_app in Hstop. simpl in Hstop.
      unfold call_failed in Hfail. apply andb_true_iff in Hfail.
      destruct Hfail as [Hcall _]. rewrite Hcall in Hstop.
      rewrite orb_true_r in Hstop. discriminate Hstop.
    + apply (IH _ Hstop e post eq_refl Hfail).
Qed.

Lemma main_stops_at_failure (rq : Request) (w : W) :
  stops_at_failure (trace (main env rq w)) = true.
Proof.
  destruct rq; unfold_main; split_answers; reflexivity.
Qed.

(** X1: whatever the route, once a call has failed (the read of the secret,
    the construction of the service, or a call of the files API) the handler
    makes no further call: no retry, no other lookup, no undoing of what was
    done before. *)
Theorem no_call_after_a_failed_call :
  forall (rq : Request) (w : W) (pre : list Event) (e : Event)
         (post : list Event),
    trace (main env rq w) = pre ++ e :: post ->
    call_failed e = true ->
    existsb is_call post = false.
Proof.
  intros rq w pre e post Htrace Hfail.
  apply (stops_at_failure_spec _ (main_stops_at_failure rq w) pre e post);
    assumption.
Qed.

(** X2: a request that gets past validation reads the secret file
    [.info_source.json] first, and reads it once; a call of the files API is
    made only after that read succeeded and a service was built over the
    client configured from what the decoder left of the secret, with the
    Drive scope and the token URL. *)
Theorem secret_is_read_first_and_once :
  forall (rq : Request) (w : W),
    (trace (main env rq w) = [] \/
     exists (r : result (list byte)) (rest : list Event),
       trace (main env rq w) = EvReadFile ".info_source.json" r :: rest /\
       existsb is_read_file rest = false) /\
    (existsb is_files_call (trace (main env rq w)) = true ->
     exists (b : list byte) (srv : Service) (rest : list Event),
       trace (main env rq w)
       = EvReadFile ".info_source.json" (Ok b)
         :: EvNewService
              (mkConfig (Email (fst (json_Unmarshal env b (mkSecret "" ""))))
                 (list_byte_of_string
                    (PrivateKey (fst (json_Unmarshal env b (mkSecret "" "")))))
                 [DriveScope] JWTTokenURL)
              (Ok srv)
         :: rest /\
       existsb is_new_service rest = false).
Proof.
  intros rq w. split.
  - destruct rq; unfold_main; split_answers;
      first [ left; reflexivity
            | right; eexists; eexists; split; reflexivity ].
  - destruct rq; unfold_main; split_answers; intro Hcall;
      try discriminate Hcall;
      eexists; eexists; eexists; split; reflexivity.
Qed.

(** X3: the process ends only on the path of an unreadable secret: the exit
    status is 1, the failed read is the only call made and nothing runs after
    [log.Fatal] (the stream of an upload, already opened, is not closed);
    conversely a failed read always ends the process. *)
Theorem exit_only_on_unreadable_secret :
  forall (rq : Request) (w : W),
    (forall code : nat,
        value (main env rq w) = Exit code ->
        code = 1 /\
        exists e : string,
          trace (main env rq w)
          = [EvReadFile ".info_source.json" (Err e);
             EvFatal ("error while reading the credential file" ++ e)]) /\
    (forall (path e : string),
        In (EvReadFile path (Err e)) (trace (main env rq w)) ->
        value (main env rq w) = Exit 1).
Proof.
  intros rq w. split.
  - intros code. destruct rq; unfold_main; split_answers; intro Hexit;
      try discriminate Hexit;
      inversion Hexit; subst; (split; [reflexivity |]);
      eexists; reflexivity.
  - intros path e. destruct rq; unfold_main; split_answers; intro Hin;
      in_trace Hin; reflexivity.
Qed.

End Routes.

Section Answers.

Variable W : Type.
Variable env : Remote W.

Lemma negb_eqb_empty_false (s : string) :
  negb (s =? "") = false -> s = "".
Proof.
  intro H. apply negb_false_iff in H. apply String.eqb_eq. exact H.
Qed.



(** X5: an answer that follows at least one call has status 500 exactly
    when one of the calls failed; in particular an answer with status 200 or
    404 means that every call made succeeded. *)
Theorem status_500_iff_a_call_failed :
  forall (rq : Request) (w : W) (r : Response),
    value (main env rq w) = Return r ->
    (existsb call_failed (trace (main env rq w)) = true
     <-> status r = StatusInternalServerError /\ trace (main env rq w) <> []).
Proof.
  intros rq w r.
  destruct rq; unfold_main; split_answers; intro Hr;
    try discriminate Hr; inversion Hr; subst; clear Hr; simpl;
    (split;
     [ intro Hfailed;
       first [ discriminate Hfailed
             | split; [reflexivity | discriminate] ]
     | intros [Hstatus Hcalls];
       first [ discriminate Hstatus
             | reflexivity
             | exfalso; apply Hcalls; reflexivity ] ]).
Qed.

(** X6: the list, download and metadata routes never issue a Delete or a
    Create; and on every route each kind of call is made at most once per
    request (one page of a listing, no retry). *)
Theorem read_only_routes_and_single_calls :
  forall (rq : Request) (w : W),
    (read_only rq = true ->
     existsb modifies (trace (main env rq w)) = false) /\
    length (filter is_list (trace (main env rq w))) <= 1 /\
    length (filter is_delete (trace (main env rq w))) <= 1 /\
    length (filter is_create (trace (main env rq w))) <= 1 /\
    length (filter is_get (trace (main env rq w))) <= 1 /\
    length (filter is_download (trace (main env rq w))) <= 1.
Proof.
  intros rq w.
  destruct rq; unfold_main; split_answers; simpl;
    repeat split; try (intro Hro; try discriminate Hro; reflexivity); lia.
Qed.

(** X7: a stream is answered only by the download route and only after a
    successful Download; every other answer is a JSON object. *)
Theorem stream_only_after_download :
  forall (rq : Request) (w : W) (code : nat) (contentType : string)
         (written : list byte) (err : option string),
    value (main env rq w) = Return (Stream code contentType written err) ->
    exists (fileId : string) (resp : HttpResponse),
      rq = GetDownload fileId /\ fileId <> "" /\
      In (EvDownload fileId (Ok resp)) (trace (main env rq w)) /\
      contentType = resp_ContentType resp /\ code = StatusOK.
Proof.
  intros rq w code contentType written err.
  destruct rq; unfold_main; split_answers; intro Hr;
    try discriminate Hr; inversion Hr; subst; clear Hr.
  eexists. eexists. split; [reflexivity |].
  split; [apply String.eqb_neq; assumption |].
  split; [simpl; tauto |]. split; reflexivity.
Qed.

(** X8: an answer with status 400 never follows a call, except on the
    metadata route, where a bound body with neither field is refused only
    after the secret was read and the service was built. *)
Theorem status_400_before_any_call :
  forall (rq : Request) (w : W) (r : Response),
    value (main env rq w) = Return r ->
    status r = StatusBadRequest ->
    trace (main env rq w) = [] \/
    exists body : requestBody,
      rq = PostFileMetadata (Ok body) /\
      FileID body = "" /\ FileName body = "" /\
      service_built (trace (main env rq w)) /\
      existsb is_files_call (trace (main env rq w)) = false.
Proof.
  intros rq w r.
  destruct rq; unfold_main; split_answers; intro Hr;
    try discriminate Hr; inversion Hr; subst; clear Hr;
    intro Hstatus; try discriminate Hstatus;
    try (left; reflexivity).
  right. eexists. split; [reflexivity |].
  split; [apply negb_eqb_empty_false; assumption |].
  split; [apply negb_eqb_empty_false; assumption |].
  split; [| reflexivity].
  eexists. eexists. simpl. right. left. reflexivity.
Qed.

End Answers.

Section UploadCalls.

Variable W : Type.
Variable env : Remote W.

(** X9: an upload whose file part was opened closes that stream exactly
    once, as its last step, on every path that returns an answer; on the path
    that ends the process the stream is never closed. *)
Theorem upload_closes_opened_stream :
  forall (c : UploadRequest) (w : W) (file : FileHeader) (src : list byte),
    FormValue_folder c <> "" ->
    FormFile_file c = Ok file ->
    Open file = Ok src ->
    match value (uploadFileHandler env c w) with
    | Return _ =>
        exists pre : list Event,
          trace (uploadFileHandler env c w) = pre ++ [EvSrcClose] /\
          existsb is_src_close pre = false
    | Exit _ =>
        existsb is_src_close (trace (uploadFileHandler env c w)) = false
    end.
Proof.
  intros c w file src Hfolder Hfile Hopen.
  apply String.eqb_neq in Hfolder.
  unfold_handler. rewrite Hfolder, Hfile, Hopen.
  split_answers; simpl;
    first [ reflexivity
          | match goal with
            | |- exists pre, ?tr = _ /\ _ =>
                exists (removelast tr); split; reflexivity
            end ].
Qed.

(** X10: the file an upload creates has the name and the declared content
    type of the uploaded part, the bytes the part opened to, no id or link of
    its own, and exactly one parent: the folder of the request. *)
Theorem upload_creates_what_was_sent :
  forall (c : UploadRequest) (w : W) (f : File) (content : list byte)
         (r : result File),
    In (EvCreate f content r) (trace (uploadFileHandler env c w)) ->
    exists file : FileHeader,
      FormFile_file c = Ok file /\
      Open file = Ok content /\
      f = mkFile "" (Filename file) (Header_ContentType file)
                 [FormValue_folder c] "".
Proof.
  intros c w f content r.
  unfold_handler. split_answers; intro Hin; in_trace Hin;
    inversion Hin; subst;
    eexists; (split; [reflexivity |]); split; (reflexivity || assumption).
Qed.

(** X11: which file an upload searches for and deletes does not depend on
    the folder it uploads to: two uploads of the same part to different
    folders, from the same state of the world, issue the same List and the
    same Delete. *)
Theorem upload_delete_ignores_folder :
  forall (folder1 folder2 : string) (part : result FileHeader) (w : W),
    folder1 <> "" -> folder2 <> "" ->
    filter (fun e => is_list e || is_delete e)
           (trace (uploadFileHandler env (mkUploadRequest folder1 part) w))
    = filter (fun e => is_list e || is_delete e)
             (trace (uploadFileHandler env (mkUploadRequest folder2 part) w)).
Proof.
  intros folder1 folder2 part w H1 H2.
  apply String.eqb_neq in H1, H2.
  unfold_handler. cbn [FormValue_folder FormFile_file].
  rewrite H1, H2.
  split_answers; reflexivity.
Qed.

(** X12: when the Delete of an upload succeeded and the Create then fails,
    the answer is 500 and the handler stops there: the file that was deleted
    is not put back and nothing is created. *)
Theorem upload_failed_create_after_delete :
  forall (c : UploadRequest) (w : W) (id : string) (f : File)
         (content : list byte) (e : string),
    In (EvDelete id (Ok tt)) (trace (uploadFileHandler env c w)) ->
    In (EvCreate f content (Err e)) (trace (uploadFileHandler env c w)) ->
    value (uploadFileHandler env c w)
    = Return (JSON StatusInternalServerError
                (ErrorBody "Failed to upload file to Google Drive")) /\
    exists pre : list Event,
      trace (uploadFileHandler env c w)
      = pre ++ [EvDelete id (Ok tt); EvCreate f content (Err e); EvSrcClose] /\
      existsb modifies pre = false.
Proof.
  intros c w id f content e.
  unfold_handler. split_answers; intros Hdel Hcreate;
    in_trace Hdel; in_trace Hcreate.
  inversion Hdel; inversion Hcreate; subst.
  split; [reflexivity |].
  match goal with
  | |- context [EvReadFile ?p ?a :: EvNewService ?cl ?s :: EvList ?q ?fs ?l :: _] =>
      exists [EvReadFile p a; EvNewService cl s; EvList q fs l]
  end.
  split; reflexivity.
Qed.

(** X13: the Get of an upload comes right after a Create that succeeded
    and asks for the id that Create returned; it is the last call. *)
Theorem upload_refetches_created_id :
  forall (c : UploadRequest) (w : W) (id fields : string) (r : result File),
    In (EvGet id fields r) (trace (uploadFileHandler env c w)) ->
    exists (pre : list Event) (f created : File) (content : list byte),
      trace (uploadFileHandler env c w)
      = pre ++ [EvCreate f content (Ok created); EvGet id fields r;
                EvSrcClose] /\
      id = Id created /\ fields = "id, name, webViewLink".
Proof.
  intros c w id fields r.
  unfold_handler. split_answers; intro Hin; in_trace Hin;
    inversion Hin; subst;
    match goal with
    | |- context [EvCreate ?f ?content (Ok ?created) :: EvGet _ _ _ :: _] =>
        match goal with
        | |- exists pre, _ =>
            match goal with
            | |- context [?tr = _ ++ _] =>
                exists (firstn (length tr - 3) tr), f, created, content
            end
        end
    end; repeat split; reflexivity.
Qed.

End UploadCalls.

Section OtherRoutes.

Variable W : Type.
Variable env : Remote W.

(** X14: a delete request with a non-empty id, once the service is built,
    makes one call of the files API, the Delete of exactly that id, without
    looking the file up first; the answer is 200 with the same id when the
    Delete succeeded and 500 when it failed. *)
Theorem delete_route_deletes_by_id :
  forall (fileId : string) (w : W),
    fileId <> "" ->
    service_built (trace (deleteFileHandler env fileId w)) ->
    exists d : result unit,
      filter is_files_call (trace (deleteFileHandler env fileId w))
      = [EvDelete fileId d] /\
      value (deleteFileHandler env fileId w)
      = Return
          match d with
          | Ok _ =>
              JSON StatusOK (DeletedBody "File successfully deleted" fileId)
          | Err _ =>
              JSON StatusInternalServerError
                (ErrorBody "Failed to delete file from Google Drive")
          end.
Proof.
  intros fileId w Hid (cl & srv & Hin).
  apply String.eqb_neq in Hid. revert Hin.
  unfold_handler. rewrite Hid.
  split_answers; intro Hin; in_trace Hin; eexists; split; reflexivity.
Qed.

(** X15: a list request with a non-empty folder, once the service is
    built, makes one call of the files API, the List of the files whose
    parents hold that folder; a successful List is answered with 200, the
    folder and the files exactly as returned (an empty listing included), a
    failed one with 500. *)
Theorem list_route_returns_listing :
  forall (folderId : string) (w : W),
    folderId <> "" ->
    service_built (trace (listFilesHandler env folderId w)) ->
    exists l : result (list File),
      filter is_files_call (trace (listFilesHandler env folderId w))
      = [EvList (parents_query folderId) "files(id, name, webViewLink)" l] /\
      value (listFilesHandler env folderId w)
      = Return
          match l with
          | Ok files =>
              JSON StatusOK
                (ListBody "Files successfully retrieved" folderId files)
          | Err _ =>
              JSON StatusInternalServerError
                (ErrorBody "Failed to list files in Google Drive")
          end.
Proof.
  intros folderId w Hid (cl & srv & Hin).
  apply String.eqb_neq in Hid. revert Hin.
  unfold_handler. rewrite Hid.
  split_answers; intro Hin; in_trace Hin; eexists; split; reflexivity.
Qed.

(** X16: with a non-empty [file_id] the [file_name] of a metadata request
    is not looked at: two bodies with the same id run alike, answer, state of
    the world and calls. *)
Theorem metadata_ignores_name_when_id_given :
  forall (id name1 name2 : string) (w : W),
    id <> "" ->
    getFileMetadataHandler env (Ok (mkRequestBody id name1)) w
    = getFileMetadataHandler env (Ok (mkRequestBody id name2)) w.
Proof.
  intros id name1 name2 w Hid. apply String.eqb_neq in Hid.
  unfold_handler. cbn [FileID FileName]. rewrite Hid. reflexivity.
Qed.

(** X17: when the Download of a download request fails the answer is 500
    and nothing is copied or closed: there is no body to release. *)
Theorem failed_download_has_no_body :
  forall (fileId id : string) (w : W) (e : string),
    In (EvDownload id (Err e)) (trace (getFileHandler env fileId w)) ->
    value (getFileHandler env fileId w)
    = Return (JSON StatusInternalServerError
                (ErrorBody "Failed to get file from Google Drive")) /\
    existsb (fun ev => is_copy ev || is_body_close ev)
            (trace (getFileHandler env fileId w)) = false.
Proof.
  intros fileId id w e.
  unfold_handler. split_answers; intro Hin; in_trace Hin.
  split; reflexivity.
Qed.



End OtherRoutes.

(** * The further properties at work on the in-memory store *)

Lemma no_call_after_a_failed_call_witness :
  existsb is_call [EvSrcClose] = false.
Proof.
  apply (no_call_after_a_failed_call _ MemDrive.no_service
           (PostUploadFile (MemDrive.upload "report.txt")) MemDrive.store
           [EvReadFile ".info_source.json" (Ok MemDrive.secret_bytes)]
           (EvNewService mem_client (Err "bad option"))
           [EvSrcClose]); reflexivity.
Defined.

Lemma secret_is_read_first_witness :
  exists (r : result (list byte)) (rest : list Event),
    trace (main MemDrive.env (GetList "root") MemDrive.store)
    = EvReadFile ".info_source.json" r :: rest /\
    existsb is_read_file rest = false.
Proof.
  destruct (secret_is_read_first_and_once _ MemDrive.env (GetList "root")
              MemDrive.store) as [[Hempty | Hfirst] _].
  - discriminate Hempty.
  - exact Hfirst.
Defined.

Lemma exit_on_unreadable_secret_witness :
  value (main MemDrive.no_secret (DeleteFileDelete "a1") MemDrive.store)
  = Exit 1.
Proof.
  destruct (exit_only_on_unreadable_secret _ MemDrive.no_secret
              (DeleteFileDelete "a1") MemDrive.store) as [_ Hexit].
  apply (Hexit ".info_source.json" "permission denied").
  simpl. left. reflexivity.
Defined.


Lemma status_500_witness :
  existsb call_failed
    (trace (main MemDrive.env (DeleteFileDelete "gone") MemDrive.store))
  = true.
Proof.
  apply (status_500_iff_a_call_failed _ MemDrive.env
           (DeleteFileDelete "gone") MemDrive.store
           (JSON StatusInternalServerError
              (ErrorBody "Failed to delete file from Google Drive"))
           eq_refl).
  split; [reflexivity | discriminate].
Defined.

Lemma read_only_witness :
  existsb modifies
    (trace (main MemDrive.env (PostFileMetadata (Ok (mkRequestBody "a1" "")))
                 MemDrive.store))
  = false.
Proof.
  destruct (read_only_routes_and_single_calls _ MemDrive.env
              (PostFileMetadata (Ok (mkRequestBody "a1" "")))
              MemDrive.store) as [Hread_only _].
  apply Hread_only. reflexivity.
Defined.

Lemma stream_only_after_download_witness :
  exists (fileId : string) (resp : HttpResponse),
    GetDownload "a1" = GetDownload fileId /\ fileId <> "" /\
    In (EvDownload fileId (Ok resp))
       (trace (main MemDrive.env (GetDownload "a1") MemDrive.store)) /\
    "text/plain" = resp_ContentType resp /\ 200 = StatusOK.
Proof.
  apply (stream_only_after_download _ MemDrive.env (GetDownload "a1")
           MemDrive.store 200 "text/plain" [x68; x69; x21] None).
  reflexivity.
Defined.

Lemma status_400_witness :
  trace (main MemDrive.env (PostFileMetadata (Ok (mkRequestBody "" "")))
              MemDrive.store) = [] \/
  exists body : requestBody,
    PostFileMetadata (Ok (mkRequestBody "" "")) = PostFileMetadata (Ok body) /\
    FileID body = "" /\ FileName body = "" /\
    service_built
      (trace (main MemDrive.env (PostFileMetadata (Ok (mkRequestBody "" "")))
                   MemDrive.store)) /\
    existsb is_files_call
      (trace (main MemDrive.env (PostFileMetadata (Ok (mkRequestBody "" "")))
                   MemDrive.store)) = false.
Proof.
  apply (status_400_before_any_call _ MemDrive.env
           (PostFileMetadata (Ok (mkRequestBody "" ""))) MemDrive.store
           (JSON StatusBadRequest
              (ErrorBody "File ID or File Name is required")));
    reflexivity.
Defined.

Lemma upload_closes_opened_stream_witness :
  (exists pre : list Event,
      trace (uploadFileHandler MemDrive.env (MemDrive.upload "new.txt")
                               MemDrive.store)
      = pre ++ [EvSrcClose] /\
      existsb is_src_close pre = false) /\
  existsb is_src_close
    (trace (uploadFileHandler MemDrive.no_secret (MemDrive.upload "new.txt")
                              MemDrive.store))
  = false.
Proof.
  split.
  - apply (upload_closes_opened_stream _ MemDrive.env
             (MemDrive.upload "new.txt") MemDrive.store
             (mkFileHeader "new.txt" "text/plain" (Ok [x61; x62]))
             [x61; x62]); [discriminate | reflexivity | reflexivity].
  - apply (upload_closes_opened_stream _ MemDrive.no_secret
             (MemDrive.upload "new.txt") MemDrive.store
             (mkFileHeader "new.txt" "text/plain" (Ok [x61; x62]))
             [x61; x62]); [discriminate | reflexivity | reflexivity].
Defined.

Lemma upload_creates_what_was_sent_witness :
  exists file : FileHeader,
    FormFile_file (MemDrive.upload "new.txt") = Ok file /\
    Open file = Ok [x61; x62] /\
    mkFile "" "new.txt" "text/plain" ["root"] ""
    = mkFile "" (Filename file) (Header_ContentType file)
             [FormValue_folder (MemDrive.upload "new.txt")] "".
Proof.
  apply (upload_creates_what_was_sent _ quota_exceeded
           (MemDrive.upload "new.txt") MemDrive.store
           (mkFile "" "new.txt" "text/plain" ["root"] "") [x61; x62]
           (Err "storage quota exceeded")).
  simpl. do 3 right. left. reflexivity.
Defined.

Lemma upload_delete_ignores_folder_witness :
  filter (fun e => is_list e || is_delete e)
         (trace (uploadFileHandler MemDrive.env
                   (mkUploadRequest "root"
                      (Ok (mkFileHeader "report.txt" "text/plain" (Ok []))))
                   MemDrive.store))
  = filter (fun e => is_list e || is_delete e)
           (trace (uploadFileHandler MemDrive.env
                     (mkUploadRequest "other"
                        (Ok (mkFileHeader "report.txt" "text/plain" (Ok []))))
                     MemDrive.store)).
Proof.
  apply (upload_delete_ignores_folder _ MemDrive.env "root" "other");
    discriminate.
Defined.

Lemma upload_failed_create_witness :
  value (uploadFileHandler quota_exceeded (MemDrive.upload "report.txt")
                           MemDrive.store)
  = Return (JSON StatusInternalServerError
              (ErrorBody "Failed to upload file to Google Drive")) /\
  exists pre : list Event,
    trace (uploadFileHandler quota_exceeded (MemDrive.upload "report.txt")
                             MemDrive.store)
    = pre ++ [EvDelete "a1" (Ok tt);
              EvCreate (mkFile "" "report.txt" "text/plain" ["root"] "")
                       [x61; x62] (Err "storage quota exceeded");
              EvSrcClose] /\
    existsb modifies pre = false.
Proof.
  apply (upload_failed_create_after_delete _ quota_exceeded
           (MemDrive.upload "report.txt") MemDrive.store).
  - simpl. do 3 right. left. reflexivity.
  - simpl. do 4 right. left. reflexivity.
Defined.

Lemma upload_refetches_created_id_witness :
  exists (pre : list Event) (f created : File) (content : list byte),
    trace (uploadFileHandler MemDrive.env (MemDrive.upload "new.txt")
                             MemDrive.store)
    = pre ++ [EvCreate f content (Ok created);
              EvGet "xxxf" "id, name, webViewLink"
                    (Ok (mkFile "xxxf" "new.txt" "text/plain" ["root"]
                                "https://drive.google.com/file/d/xxxf"));
              EvSrcClose] /\
    "xxxf" = Id created /\
    "id, name, webViewLink" = "id, name, webViewLink".
Proof.
  apply (upload_refetches_created_id _ MemDrive.env
           (MemDrive.upload "new.txt") MemDrive.store).
  simpl. do 4 right. left. reflexivity.
Defined.

Lemma delete_route_witness :
  exists d : result unit,
    filter is_files_call
      (trace (deleteFileHandler MemDrive.env "a2" MemDrive.store))
    = [EvDelete "a2" d] /\
    value (deleteFileHandler MemDrive.env "a2" MemDrive.store)
    = Return
        match d with
        | Ok _ => JSON StatusOK (DeletedBody "File successfully deleted" "a2")
        | Err _ =>
            JSON StatusInternalServerError
              (ErrorBody "Failed to delete file from Google Drive")
        end.
Proof.
  apply (delete_route_deletes_by_id _ MemDrive.env "a2" MemDrive.store).
  - discriminate.
  - exists mem_client, (mkService mem_client).
    simpl. right. left. reflexivity.
Defined.

Lemma list_route_witness :
  exists l : result (list File),
    filter is_files_call
      (trace (listFilesHandler MemDrive.env "empty" MemDrive.store))
    = [EvList (parents_query "empty") "files(id, name, webViewLink)" l] /\
    value (listFilesHandler MemDrive.env "empty" MemDrive.store)
    = Return
        match l with
        | Ok files =>
            JSON StatusOK
              (ListBody "Files successfully retrieved" "empty" files)
        | Err _ =>
            JSON StatusInternalServerError
              (ErrorBody "Failed to list files in Google Drive")
        end.
Proof.
  apply (list_route_returns_listing _ MemDrive.env "empty" MemDrive.store).
  - discriminate.
  - exists mem_client, (mkService mem_client).
    simpl. right. left. reflexivity.
Defined.

Lemma metadata_ignores_name_witness :
  getFileMetadataHandler MemDrive.env (Ok (mkRequestBody "a3" "report.txt"))
                         MemDrive.store
  = getFileMetadataHandler MemDrive.env (Ok (mkRequestBody "a3" ""))
                           MemDrive.store.
Proof.
  apply (metadata_ignores_name_when_id_given _ MemDrive.env "a3").
  discriminate.
Defined.

Lemma failed_download_witness :
  value (getFileHandler MemDrive.env "gone" MemDrive.store)
  = Return (JSON StatusInternalServerError
              (ErrorBody "Failed to get file from Google Drive")) /\
  existsb (fun ev => is_copy ev || is_body_close ev)
          (trace (getFileHandler MemDrive.env "gone" MemDrive.store))
  = false.
Proof.
  apply (failed_download_has_no_body _ MemDrive.env "gone" "gone"
           MemDrive.store "File not found").
  simpl. do 2 right. left. reflexivity.
Defined.

